(** * depthai Python bindings: module construction (src/py_bindings.cpp)

    A shallow embedding of the body of [PYBIND11_MODULE(depthai, m)]:
    the seven metadata attributes, the construction of the callstack of
    binding callbacks, the initial call that runs them, the resolution of
    the install-signal-handler option and the call of [dai::initialize]. *)

From stdpp Require Import base option list gmap strings.

Local Open Scope string_scope.
Local Open Scope list_scope.

(** ** Python values, modules and the interpreter *)

(** The Python objects the module body reads or writes: [py::str] for the
    metadata attributes, the objects that [cast<bool>] loads as a [bool]
    for the signal-handler option, and anything else (types, functions,
    ...) kept opaque; [cast<bool>] throws on a [PyStr] and on a
    [PyOpaque]. *)
Inductive PyObject :=
  | PyStr (s : string)
  | PyBool (b : bool)
  | PyOpaque (repr : string).

#[global] Instance PyObject_eq_dec : EqDecision PyObject.
Proof. solve_decision. Defined.

(** A module is its attribute dictionary. *)
Abbreviation PyModule := (gmap string PyObject).

(** The importable modules of the running interpreter ([sys.modules] and
    what the import machinery can find), by name. *)
Abbreviation Interpreter := (gmap string (gmap string PyObject)).

(** ** C++ exceptions *)

(** What a [throw] carries, as far as the handlers of this file can tell:
    an object derived from [std::exception] (matched by
    [catch (const std::exception&)] and by [catch (...)]), or any other
    object (matched by [catch (...)] only). *)
Inductive exn :=
  | StdException (what : string)
  | NonStdException (what : string).

#[global] Instance exn_eq_dec : EqDecision exn.
Proof. solve_decision. Defined.

Inductive result (A : Type) :=
  | Ok (a : A)
  | Throw (e : exn).
Arguments Ok {A} a.
Arguments Throw {A} e.

(** [try { body } catch (...) { }] around an assignment to a local: the
    handler is empty, so on a throw the local keeps [old]. *)
Definition try_catch_all {A} (body : result A) (old : A) : A :=
  match body with
  | Ok a => a
  | Throw _ => old
  end.

(** [try { body } catch (const std::exception&) { }]: only objects derived
    from [std::exception] are absorbed, the rest keeps propagating. *)
Definition try_catch_std (body : option exn) : option exn :=
  match body with
  | None => None
  | Some (StdException _) => None
  | Some (NonStdException w) => Some (NonStdException w)
  end.

(** ** Binding callbacks and the callstack *)

(** [StackFunction] is a pointer to a function taking the module and an
    untyped pointer to the callstack adapter, returning nothing.  The module
    body stores the address of the [bind] function of a binding area, and
    one capture-less lambda. *)
Inductive StackFunction :=
  | Bind (area : string)
  | EndOfCallstack.

#[global] Instance StackFunction_eq_dec : EqDecision StackFunction.
Proof. solve_decision. Defined.

(** [std::deque<StackFunction>], front first. *)
Abbreviation deque := (list StackFunction).

Definition push_front (f : StackFunction) (d : deque) : deque := f :: d.

(** Pushing [fs] one after the other, first element first. *)
Definition push_all (fs : list StackFunction) (d : deque) : deque :=
  foldl (fun d f => push_front f d) d fs.

(** What one invocation of a callback does: the module as it leaves it, the
    callbacks it pushed (in the order of its [push_front] calls) and the
    exception it threw, if any. *)
Record Effect := mkEffect {
  eff_module : PyModule;
  eff_pushed : list StackFunction;
  eff_error : option exn
}.

(** The state of a drain that has stopped. *)
Record DrainResult := mkDrain {
  dr_module : PyModule;
  dr_trace : list StackFunction;
  dr_remaining : deque;
  dr_error : option exn
}.

Definition ran (f : StackFunction) (r : DrainResult) : DrainResult :=
  mkDrain (dr_module r) (f :: dr_trace r) (dr_remaining r) (dr_error r).

Section Callstack.

(** The [bind] functions of the binding areas are defined in other
    translation units; their behaviour is a parameter. *)
Variable registrar : string -> PyModule -> Effect.

(** Calling a [StackFunction].  The lambda of line 71 has an empty
    body. *)
Definition invoke (f : StackFunction) (m : PyModule) : Effect :=
  match f with
  | Bind area => registrar area m
  | EndOfCallstack => mkEffect m [] None
  end.

(** Modelled from the spec: the [Callstack] adapter and its drain loop
    are declared in pybind11_common.hpp and used by the [bind] functions,
    none of which is part of this file.  The adapter wraps the work-list;
    a running callback can only push to its front; [drain] removes the
    front callback and invokes it until the list is empty, and stops at
    the first throw, leaving the callbacks not yet run in the list.
    [fuel] bounds the number of invocations; [None] is a drain that has
    not stopped within it. *)
Fixpoint drain (fuel : nat) (m : PyModule) (wl : deque) {struct fuel}
    : option DrainResult :=
  match wl with
  | [] => Some (mkDrain m [] [] None)
  | f :: rest =>
      match fuel with
      | O => None
      | S fuel' =>
          let o := invoke f m in
          let wl' := push_all (eff_pushed o) rest in
          match eff_error o with
          | Some e => Some (mkDrain (eff_module o) [f] wl' (Some e))
          | None => ran f <$> drain fuel' (eff_module o) wl'
          end
      end
  end.

(** Modelled from the spec: [CommonBindings::bind] is defined in
    pipeline/CommonBindings.cpp.  It is the initial call: the common
    registrar runs with the module and the adapter handle, and the
    work-list is then drained. *)
Definition CommonBindings_bind (fuel : nat) (m : PyModule) (cs : deque)
    : option DrainResult :=
  let o := registrar "CommonBindings" m in
  let cs' := push_all (eff_pushed o) cs in
  match eff_error o with
  | Some e =>
      Some (mkDrain (eff_module o) [Bind "CommonBindings"] cs' (Some e))
  | None => ran (Bind "CommonBindings") <$> drain fuel (eff_module o) cs'
  end.

End Callstack.

(** ** Traces of a drain *)

Section Replay.

Variable registrar : string -> PyModule -> Effect.

(** The module after the callbacks of [tr] ran one after the other. *)
Definition replay (m : PyModule) (tr : list StackFunction) : PyModule :=
  foldl (fun m f => eff_module (invoke registrar f m)) m tr.

(** None of the callbacks of [tr], run one after the other, throws. *)
Fixpoint quiet (m : PyModule) (tr : list StackFunction) : Prop :=
  match tr with
  | [] => True
  | f :: tr' =>
      eff_error (invoke registrar f m) = None /\
      quiet (eff_module (invoke registrar f m)) tr'
  end.


(** The trace of a drain that stopped normally, cut into one batch per
    callback of the list it started from, in the order of the list: the
    callback, then all it brought into the list. *)
Fixpoint in_batches (n : nat) (m : PyModule) (l : deque)
    (tr : list StackFunction) (m_end : PyModule) : Prop :=
  match l with
  | [] => tr = [] /\ m_end = m
  | f :: l' =>
      exists r1 own rest,
        drain registrar n m [f] = Some r1 /\ dr_error r1 = None /\
        dr_trace r1 = f :: own /\ tr = f :: own ++ rest /\
        in_batches n (dr_module r1) l' rest m_end
  end.

End Replay.

(** ** What the module body does, as a log *)

Inductive event :=
  | SetAttr (name : string)
  | Invoke (f : StackFunction)
  | Import (ns : string)
  | HasAttr (ns key : string)
  | GetAttr (ns key : string)
  | Initialize (banner : string) (installSignalHandler : bool).

#[global] Instance event_eq_dec : EqDecision event.
Proof. solve_decision. Defined.

(** Code that talks to the interpreter: it may throw, and it extends the
    log either way. *)
Definition Py (A : Type) : Type := list event -> result A * list event.

Definition py_ret {A} (a : A) : Py A := fun log => (Ok a, log).

Definition py_bind {A B} (c : Py A) (k : A -> Py B) : Py B :=
  fun log =>
    match c log with
    | (Ok a, log') => k a log'
    | (Throw e, log') => (Throw e, log')
    end.

Notation "'let*' x := c 'in' k" := (py_bind c (fun x => k))
  (at level 10, x name, c at level 100, k at level 200).

(** [py::module_::import(name)]: throws when the module cannot be found. *)
Definition py_import (py : Interpreter) (name : string)
    : Py (string * PyModule) :=
  fun log =>
    (match py !! name with
     | Some d => Ok (name, d)
     | None => Throw (StdException "ModuleNotFoundError")
     end, log ++ [Import name]).

(** [py::hasattr(obj, key)]. *)
Definition py_hasattr (obj : string * PyModule) (key : string) : Py bool :=
  fun log =>
    (Ok (bool_decide (is_Some (obj.2 !! key))), log ++ [HasAttr obj.1 key]).

(** [obj.attr(key).cast<bool>()]: throws when the attribute is missing or
    is not a [bool]. *)
Definition py_attr_cast_bool (obj : string * PyModule) (key : string)
    : Py bool :=
  fun log =>
    (match obj.2 !! key with
     | Some (PyBool b) => Ok b
     | Some _ => Throw (StdException "cast_error")
     | None => Throw (StdException "AttributeError")
     end, log ++ [GetAttr obj.1 key]).

(** [a && rhs] of C++: [rhs] is evaluated only when [a] holds. *)
Definition and_then (a : bool) (rhs : Py bool) : Py bool :=
  if a then rhs else py_ret false.

(** [try { body } catch (...) { }] for [Py] code assigning a local. *)
Definition py_try_catch_all (body : Py bool) (old : bool)
    : list event -> bool * list event :=
  fun log => let '(r, log') := body log in (try_catch_all r old, log').

Definition signalHandlerKey : string := "DEPTHAI_INSTALL_SIGNAL_HANDLER".

(** One of the two [try] blocks of lines 81-96, for the namespace [ns];
    [installSignalHandler] is the value of the local on entry. *)
Definition probe (py : Interpreter) (ns : string) (installSignalHandler : bool)
    : list event -> bool * list event :=
  py_try_catch_all
    (let* module := py_import py ns in
     let* found := py_hasattr module signalHandlerKey in
     if found
     then and_then installSignalHandler
            (py_attr_cast_bool module signalHandlerKey)
     else py_ret installSignalHandler)
    installSignalHandler.

(** Lines 79-96. *)
Definition resolve_installSignalHandler (py : Interpreter)
    : list event -> bool * list event :=
  fun log =>
    let installSignalHandler := true in
    let '(installSignalHandler, log) := probe py "sys" installSignalHandler log in
    probe py "builtins" installSignalHandler log.

(** ** The module body *)

(** The version macros and the [dai::build] constants come from generated
    headers. *)
Record BuildInfo := mkBuildInfo {
  DEPTHAI_PYTHON_VERSION : string;
  DEPTHAI_PYTHON_COMMIT_HASH : string;
  DEPTHAI_PYTHON_COMMIT_DATETIME : string;
  DEPTHAI_PYTHON_BUILD_DATETIME : string;
  DEVICE_VERSION : string;
  BOOTLOADER_VERSION : string;
  DEVICE_RVC3_VERSION : string
}.

(** [m.attr(name) = value] for a C string [value]. *)
Definition setattr_str (name value : string) (st : PyModule * list event)
    : PyModule * list event :=
  (<[name := PyStr value]> st.1, st.2 ++ [SetAttr name]).

(** Lines 47-53. *)
Definition set_metadata (b : BuildInfo) (st : PyModule * list event)
    : PyModule * list event :=
  let st := setattr_str "__version__" (DEPTHAI_PYTHON_VERSION b) st in
  let st := setattr_str "__commit__" (DEPTHAI_PYTHON_COMMIT_HASH b) st in
  let st := setattr_str "__commit_datetime__" (DEPTHAI_PYTHON_COMMIT_DATETIME b) st in
  let st := setattr_str "__build_datetime__" (DEPTHAI_PYTHON_BUILD_DATETIME b) st in
  let st := setattr_str "__device_version__" (DEVICE_VERSION b) st in
  let st := setattr_str "__bootloader_version__" (BOOTLOADER_VERSION b) st in
  setattr_str "__device_rvc3_version__" (DEVICE_RVC3_VERSION b) st.

(** The names written by lines 47-53. *)
Definition metadata_names : list string :=
  ["__version__"; "__commit__"; "__commit_datetime__"; "__build_datetime__";
   "__device_version__"; "__bootloader_version__"; "__device_rvc3_version__"].

(** The first argument of [dai::initialize], line 100. *)
Definition banner (b : BuildInfo) : string :=
  "Python bindings - version: " +:+ DEPTHAI_PYTHON_VERSION b +:+ " from "
  +:+ DEPTHAI_PYTHON_COMMIT_DATETIME b +:+ " build: "
  +:+ DEPTHAI_PYTHON_BUILD_DATETIME b.

(** Lines 56-71.  [DatatypeBindings::addToCallstack] and
    [NodeBindings::addToCallstack] receive the deque by reference and are
    defined elsewhere: they are parameters. *)
Definition build_callstack (DatatypeBindings_addToCallstack
                            NodeBindings_addToCallstack : deque -> deque)
    : deque :=
  let callstack := [] in
  let callstack := DatatypeBindings_addToCallstack callstack in
  let callstack := push_front (Bind "LogBindings") callstack in
  let callstack := push_front (Bind "VersionBindings") callstack in
  let callstack := push_front (Bind "DataQueueBindings") callstack in
  let callstack := push_front (Bind "OpenVINOBindings") callstack in
  let callstack := NodeBindings_addToCallstack callstack in
  let callstack := push_front (Bind "AssetManagerBindings") callstack in
  let callstack := push_front (Bind "PipelineBindings") callstack in
  let callstack := push_front (Bind "XLinkBindings") callstack in
  let callstack := push_front (Bind "DeviceBindings") callstack in
  let callstack := push_front (Bind "DeviceBootloaderBindings") callstack in
  let callstack := push_front (Bind "CalibrationHandlerBindings") callstack in
  let callstack := push_front (Bind "RosBindings") callstack in
  push_front EndOfCallstack callstack.

(** How the module body ends: it returns, or an exception leaves it. *)
Inductive Completion :=
  | Constructed
  | Propagated (e : exn).

#[global] Instance Completion_eq_dec : EqDecision Completion.
Proof. solve_decision. Defined.

Record InitResult := mkInit {
  completion : Completion;
  module : PyModule;
  log : list event
}.

Section ModuleBody.

Variable build : BuildInfo.
Variables DatatypeBindings_addToCallstack
          NodeBindings_addToCallstack : deque -> deque.
(** The initial call of line 76, given the module and the callstack:
    [None] when it does not return. *)
Variable initial_call : PyModule -> deque -> option DrainResult.
Variable py : Interpreter.
(** [dai::initialize]: [None] when it returns, [Some e] when it throws. *)
Variable dai_initialize : string -> bool -> option exn.

(** The body of [PYBIND11_MODULE(depthai, m)], from the module [m] as
    pybind11 created it. *)
Definition module_init (m : PyModule) : option InitResult :=
  let '(m, log) := set_metadata build (m, []) in
  let callstack :=
    build_callstack DatatypeBindings_addToCallstack
                    NodeBindings_addToCallstack in
  r ← initial_call m callstack;
  let log := log ++ (Invoke <$> dr_trace r) in
  match dr_error r with
  | Some e => Some (mkInit (Propagated e) (dr_module r) log)
  | None =>
      let '(installSignalHandler, log) := resolve_installSignalHandler py log in
      let log := log ++ [Initialize (banner build) installSignalHandler] in
      match try_catch_std (dai_initialize (banner build) installSignalHandler) with
      | None => Some (mkInit Constructed (dr_module r) log)
      | Some e => Some (mkInit (Propagated e) (dr_module r) log)
      end
  end.

End ModuleBody.

(** ** Drains in sequence *)

(** The result of draining [l1 ++ l2] when the drain of [l1] gave [r1]:
    stopped by the throw inside [l1], with [l2] still in the list, or
    continued with [l2]. *)
Definition then_drain (r1 : DrainResult) (l2 : deque)
    (k : PyModule -> option DrainResult) : option DrainResult :=
  match dr_error r1 with
  | Some e =>
      Some (mkDrain (dr_module r1) (dr_trace r1) (dr_remaining r1 ++ l2) (Some e))
  | None =>
      r2 ← k (dr_module r1);
      Some (mkDrain (dr_module r2) (dr_trace r1 ++ dr_trace r2)
                    (dr_remaining r2) (dr_error r2))
  end.

(** ** The callstack of lines 56-71 *)

(** Modelled from the spec: [DatatypeBindings::addToCallstack] and
    [NodeBindings::addToCallstack] are defined in DatatypeBindings.cpp and
    NodeBindings.cpp.  Each enqueues the callbacks of its area, and
    insertion is always at the front. *)
Definition addToCallstack (batch : list StackFunction) (callstack : deque)
    : deque :=
  push_all batch callstack.

(** Lines 56-69: the callstack before the lambda is pushed. *)
Definition callstack_of_areas (datatype_add node_add : deque -> deque) : deque :=
  [Bind "RosBindings"; Bind "CalibrationHandlerBindings";
   Bind "DeviceBootloaderBindings"; Bind "DeviceBindings";
   Bind "XLinkBindings"; Bind "PipelineBindings";
   Bind "AssetManagerBindings"]
  ++ node_add ([Bind "OpenVINOBindings"; Bind "DataQueueBindings";
                Bind "VersionBindings"; Bind "LogBindings"]
               ++ datatype_add []).


(** Modelled from the spec: the type [Callstack] is declared in
    pybind11_common.hpp.  Line 73 makes the adapter from the deque.  The
    callbacks run in the order the body put them into the deque, as the
    end-to-end scenario (X pushed first runs first) and the net order of
    the specification have it: the one pushed first is the next to run,
    and the lambda, pushed last and called the end of the callstack on
    line 70, is the last.  The list below is the adapter's work, next
    callback first; a running callback pushes in front of it. *)
Definition callstackAdapter (callstack : deque) : deque := rev callstack.

(** Lines 73-76: the initial call on the adapter made from the deque. *)
Definition initial_call_on_adapter (registrar : string -> PyModule -> Effect)
    (fuel : nat) (m : PyModule) (callstack : deque) : option DrainResult :=
  CommonBindings_bind registrar fuel m (callstackAdapter callstack).


(** ** The net order of the specification *)




(** ** Reading the option *)

(** The value of the option a namespace defines, as the specification
    words it: none when the namespace cannot be imported, has no such
    attribute, or holds a value that is not a [bool]. *)
Definition found_flag (py : Interpreter) (ns : string) : option bool :=
  match py !! ns with
  | Some d =>
      match d !! signalHandlerKey with
      | Some (PyBool b) => Some b
      | _ => None
      end
  | None => None
  end.

(** The three ways a probe fails. *)
Inductive ProbeFailure (py : Interpreter) (ns : string) : Prop :=
  | NamespaceAbsent :
      py !! ns = None -> ProbeFailure py ns
  | AttributeAbsent d :
      py !! ns = Some d -> d !! signalHandlerKey = None -> ProbeFailure py ns
  | WrongType d v :
      py !! ns = Some d -> d !! signalHandlerKey = Some v ->
      (forall b, v <> PyBool b) -> ProbeFailure py ns.

(** The events of a probe of the namespace [ns]. *)
Definition reads (ns : string) (ev : event) : Prop :=
  ev = Import ns \/ ev = HasAttr ns signalHandlerKey \/
  ev = GetAttr ns signalHandlerKey.

Definition probe_events (py : Interpreter) (ns : string) (acc : bool)
    : list event :=
  (probe py ns acc []).2.

(** The accesses of one probe of the namespace [ns] as they are expected
    of it: the import; on a module that imports, the test for the attribute
    of the option; and, when the attribute is there and the flag is still
    true, the read of that attribute. *)
Definition option_accesses (py : Interpreter) (ns : string) (still_true : bool)
    : list event :=
  match py !! ns with
  | None => [Import ns]
  | Some d =>
      Import ns :: HasAttr ns "DEPTHAI_INSTALL_SIGNAL_HANDLER"
      :: match d !! "DEPTHAI_INSTALL_SIGNAL_HANDLER" with
         | Some _ =>
             if still_true
             then [GetAttr ns "DEPTHAI_INSTALL_SIGNAL_HANDLER"]
             else []
         | None => []
         end
  end.

(** ** Reading the log *)

(** The modules imported, the calls of [dai::initialize] and the attributes
    written by the body, in the order of the log. *)
Definition imported (evs : list event) : list string :=
  omap (fun ev => match ev with Import ns => Some ns | _ => None end) evs.

Definition initialize_calls (evs : list event) : list (string * bool) :=
  omap (fun ev => match ev with
                  | Initialize s f => Some (s, f)
                  | _ => None
                  end) evs.

Definition attribute_writes (evs : list event) : list string :=
  omap (fun ev => match ev with SetAttr name => Some name | _ => None end) evs.

(** The log when the initial call has returned [r]. *)
Definition log_after_bindings (r : DrainResult) : list event :=
  (SetAttr <$> metadata_names) ++ (Invoke <$> dr_trace r).

(** ** Concrete binding areas, interpreters and builds *)

(** A binding area that only registers itself: no push, no throw. *)
Definition plain_registrar (area : string) (m : PyModule) : Effect :=
  mkEffect (<[area := PyOpaque "bound"]> m) [] None.

(** The callbacks of the end-to-end scenario: [Y] pushes [Y1], then [Y2];
    the others push nothing.  Each one leaves its name in the module. *)
Definition scenario_registrar (area : string) (m : PyModule) : Effect :=
  mkEffect (<[area := PyOpaque "bound"]> m)
           (if decide (area = "Y") then [Bind "Y1"; Bind "Y2"] else [])
           None.

(** Binding areas of which the pipeline bindings throw after a partial
    registration. *)
Definition failing_registrar (area : string) (m : PyModule) : Effect :=
  mkEffect (<[area := PyOpaque "bound"]> m) []
           (if decide (area = "PipelineBindings")
            then Some (StdException "generic_type: type is already registered")
            else None).

Definition sample_build : BuildInfo :=
  mkBuildInfo "2.24.0.0" "0a1b2c3" "2023-11-20 10:00:00 +0100"
              "2023-11-21 08:30:00 +0000" "4.0.0" "0.0.26" "0.0.1".

(** The two helpers with one callback per area. *)
Definition sample_datatype_add : deque -> deque :=
  addToCallstack [Bind "DatatypeBindings"].
Definition sample_node_add : deque -> deque :=
  addToCallstack [Bind "NodeBindings"].

(** Interpreters where [sys] defines the option as true and [builtins]
    does not define it; where [sys] says false and [builtins] true; where
    neither defines it; and where [sys] holds a string under that name. *)
Definition interp_sys_true : Interpreter :=
  {[ "sys" := {[ signalHandlerKey := PyBool true ]};
     "builtins" := {[ "len" := PyOpaque "<built-in function len>" ]} ]}.

Definition interp_sys_false_builtins_true : Interpreter :=
  {[ "sys" := {[ signalHandlerKey := PyBool false ]};
     "builtins" := {[ signalHandlerKey := PyBool true ]} ]}.

Definition interp_undefined : Interpreter :=
  {[ "sys" := {[ "platform" := PyStr "linux" ]};
     "builtins" := {[ "len" := PyOpaque "<built-in function len>" ]} ]}.

Definition interp_wrong_type : Interpreter :=
  {[ "sys" := {[ signalHandlerKey := PyStr "no" ]};
     "builtins" := {[ signalHandlerKey := PyBool false ]} ]}.

(** An interpreter that differs from [interp_sys_false_builtins_true] in
    every other respect. *)
Definition interp_other_modules : Interpreter :=
  {[ "sys" := {[ signalHandlerKey := PyBool false;
                 "DEPTHAI_INSTALL_SIGNAL_HANDLERS" := PyBool true ]};
     "builtins" := {[ signalHandlerKey := PyBool true;
                      "len" := PyOpaque "<built-in function len>" ]};
     "os" := {[ signalHandlerKey := PyBool true ]};
     "__main__" := {[ signalHandlerKey := PyBool true ]} ]}.

(** An initial call that returns after its bindings replaced the version
    attribute by a class and removed the commit attribute. *)
Definition overwriting_call (m : PyModule) (_ : deque) : option DrainResult :=
  Some (mkDrain (<["__version__" := PyOpaque "<class 'depthai.Version'>"]>
                   (delete "__commit__" m))
                [Bind "CommonBindings"] [] None).

(** [dai::initialize] failing with a [std::runtime_error], and with an
    object that is not a [std::exception]. *)
Definition initialize_runtime_error (_ : string) (_ : bool) : option exn :=
  Some (StdException "XLink initialization failed").

Definition initialize_foreign_throw (_ : string) (_ : bool) : option exn :=
  Some (NonStdException "int").

(** * Properties *)

(** ** The drain loop *)

Section DrainFacts.

Variable registrar : string -> PyModule -> Effect.

Lemma push_all_rev (fs : list StackFunction) (d : deque) :
  push_all fs d = rev fs ++ d.
Proof.
  revert d. induction fs as [|f fs IH]; intros d; simpl; [done|].
  unfold push_all in *. simpl. rewrite IH. unfold push_front.
  by rewrite <- app_assoc.
Qed.

Lemma drain_nil (fuel : nat) (m : PyModule) :
  drain registrar fuel m [] = Some (mkDrain m [] [] None).
Proof. by destruct fuel. Qed.

(** One more invocation allowed never changes the outcome of a drain that
    has stopped. *)
Lemma drain_mono (n n' : nat) (m : PyModule) (wl : deque) (r : DrainResult) :
  drain registrar n m wl = Some r -> n <= n' ->
  drain registrar n' m wl = Some r.
Proof.
  revert n' m wl r.
  induction n as [|n IH]; intros n' m wl r Hd Hle.
  - destruct wl; [|done]. simpl in Hd. by rewrite drain_nil.
  - destruct wl as [|f rest]; [simpl in Hd; by rewrite drain_nil|].
    destruct n' as [|n']; [lia|].
    simpl in *. destruct (eff_error (invoke registrar f m)); [done|].
    destruct (drain registrar n _ _) as [r'|] eqn:E; [|done].
    rewrite (IH n' _ _ r' E); [done|lia].
Qed.

Lemma then_drain_ran f r1 l2 k :
  then_drain (ran f r1) l2 k = ran f <$> then_drain r1 l2 k.
Proof.
  unfold then_drain. simpl. destruct (dr_error r1); [done|].
  by destruct (k (dr_module r1)).
Qed.

(** Everything [l1] brings into the list runs before [l2]. *)
Lemma drain_app_inv (n : nat) (m : PyModule) (l1 l2 : deque) (r : DrainResult) :
  drain registrar n m (l1 ++ l2) = Some r ->
  exists r1, drain registrar n m l1 = Some r1 /\
             then_drain r1 l2 (fun m1 => drain registrar n m1 l2) = Some r.
Proof.
  revert m l1 l2 r.
  induction n as [|n IH]; intros m l1 l2 r Hd.
  - destruct l1 as [|f l1]; [|done]. simpl in *.
    eexists; split; [done|]. unfold then_drain; simpl.
    rewrite Hd. by destruct r.
  - destruct l1 as [|f l1].
    + simpl (_ ++ _) in Hd. eexists; split; [done|].
      unfold then_drain; simpl dr_error; simpl dr_module; cbv iota.
      rewrite Hd. by destruct r.
    + remember (fun m1 => drain registrar (S n) m1 l2) as k eqn:Hk.
      simpl in Hd |- *.
      destruct (eff_error (invoke registrar f m)) as [e|] eqn:Ee.
      * eexists; split; [done|]. unfold then_drain; simpl.
        rewrite !push_all_rev in *. rewrite <- app_assoc. done.
      * destruct (drain registrar n _ (push_all _ (l1 ++ l2))) as [r'|] eqn:E;
          [|done].
        simpl in Hd. injection Hd as <-.
        rewrite push_all_rev, app_assoc, <- push_all_rev in E.
        destruct (IH _ _ _ _ E) as (r1 & H1 & H2).
        exists (ran f r1). rewrite H1. split; [done|].
        rewrite then_drain_ran.
        assert (then_drain r1 l2 k = Some r') as ->; [|done].
        subst k. unfold then_drain in *. destruct (dr_error r1); [done|].
        destruct (drain registrar n (dr_module r1) l2) as [r2|] eqn:E2; [|done].
        rewrite (drain_mono n (S n) _ _ r2 E2); [done|lia].
Qed.

(** Conversely, a drain of [l1] that stops and a drain of [l2] from where
    it stopped compose into a drain of [l1 ++ l2] that stops. *)
Lemma drain_app (n1 n2 : nat) (m : PyModule) (l1 l2 : deque)
    (r1 r : DrainResult) :
  drain registrar n1 m l1 = Some r1 ->
  then_drain r1 l2 (fun m1 => drain registrar n2 m1 l2) = Some r ->
  drain registrar (n1 + n2) m (l1 ++ l2) = Some r.
Proof.
  revert m l1 r1 r.
  induction n1 as [|n1 IH]; intros m l1 r1 r Hd Ht.
  - destruct l1; [|done]. simpl in Hd. injection Hd as <-.
    unfold then_drain in Ht; simpl in *.
    destruct (drain registrar n2 m l2) as [[]|]; [|done]. done.
  - destruct l1 as [|f l1].
    + simpl in Hd. injection Hd as <-. unfold then_drain in Ht.
      simpl dr_error in Ht. cbv iota in Ht. simpl dr_module in Ht.
      simpl (_ ++ _).
      destruct (drain registrar n2 m l2) as [r2|] eqn:E'; [|done].
      rewrite (drain_mono _ (S n1 + n2) _ _ _ E'); [|lia].
      simpl in Ht. injection Ht as <-. by destruct r2.
    + remember (fun m1 => drain registrar n2 m1 l2) as k eqn:Hk.
      simpl in Hd |- *.
      destruct (eff_error (invoke registrar f m)) as [e|] eqn:Ee.
      * injection Hd as <-. unfold then_drain in Ht; simpl in Ht.
        by rewrite !push_all_rev, <- app_assoc in *.
      * destruct (drain registrar n1 _ _) as [r'|] eqn:E; [|done].
        simpl in Hd. injection Hd as <-.
        rewrite then_drain_ran in Ht.
        destruct (then_drain r' l2 k) as [r''|] eqn:Ht'; [|done].
        simpl in Ht. injection Ht as <-. subst k.
        rewrite (push_all_rev _ (l1 ++ l2)), app_assoc, <- push_all_rev.
        by rewrite (IH _ _ _ _ E Ht').
Qed.

End DrainFacts.

(** ** Traces of a drain *)

Section Traces.

Variable registrar : string -> PyModule -> Effect.

(** The module a drain leaves is the one its invocations built, whether
    it stopped normally or by a throw: nothing is undone. *)
Lemma drain_module (n : nat) (m : PyModule) (wl : deque) (r : DrainResult) :
  drain registrar n m wl = Some r -> dr_module r = replay registrar m (dr_trace r).
Proof.
  revert m wl r. induction n as [|n IH]; intros m wl r Hd.
  - destruct wl; [|done]. by injection Hd as <-.
  - destruct wl as [|f rest]; [by injection Hd as <-|].
    simpl in Hd. destruct (eff_error (invoke registrar f m)).
    + by injection Hd as <-.
    + destruct (drain registrar n _ _) as [r'|] eqn:E; [|done].
      injection Hd as <-. simpl. by apply IH in E.
Qed.



(** A drain that stopped normally emptied the list, and no callback it
    invoked threw. *)
Lemma drain_normal (n : nat) (m : PyModule) (wl : deque) (r : DrainResult) :
  drain registrar n m wl = Some r -> dr_error r = None ->
  dr_remaining r = [] /\ quiet registrar m (dr_trace r).
Proof.
  revert m wl r. induction n as [|n IH]; intros m wl r Hd He.
  - destruct wl; [|done]. by injection Hd as <-.
  - destruct wl as [|f rest]; [by injection Hd as <-|].
    simpl in Hd. destruct (eff_error (invoke registrar f m)) as [e'|] eqn:Ee.
    + by injection Hd as <-.
    + destruct (drain registrar n _ _) as [r'|] eqn:E; [|done].
      injection Hd as <-. simpl in *.
      destruct (IH _ _ _ E He). done.
Qed.

(** A drain that stopped has invoked the front of a non-empty list
    first. *)
Lemma drain_front_first (n : nat) (m : PyModule) (f : StackFunction)
    (rest : deque) (r : DrainResult) :
  drain registrar n m (f :: rest) = Some r ->
  exists tr, dr_trace r = f :: tr.
Proof.
  destruct n as [|n]; [done|]. simpl.
  destruct (eff_error _); [intros [= <-]; by exists []|].
  destruct (drain registrar n _ _) as [r'|]; [|done].
  intros [= <-]. by eexists.
Qed.

Lemma drain_in_batches (n : nat) (m : PyModule) (l : deque) (r : DrainResult) :
  drain registrar n m l = Some r -> dr_error r = None ->
  in_batches registrar n m l (dr_trace r) (dr_module r).
Proof.
  revert m r. induction l as [|f l IH]; intros m r Hd He.
  - rewrite drain_nil in Hd. by injection Hd as <-.
  - change (f :: l) with ([f] ++ l) in Hd.
    apply drain_app_inv in Hd as (r1 & H1 & H2).
    unfold then_drain in H2.
    destruct (dr_error r1) as [e|] eqn:E1.
    { injection H2 as <-. done. }
    destruct (drain registrar n (dr_module r1) l) as [r2|] eqn:E2; [|done].
    simpl in H2. injection H2 as <-. simpl in He.
    destruct (drain_front_first _ _ _ _ _ H1) as [own Hown].
    exists r1, own, (dr_trace r2). simpl. rewrite Hown.
    repeat split; try done. by apply IH.
Qed.


End Traces.

(** ** Order of execution *)

Lemma in_batches_runs_all registrar n m l tr m_end g :
  in_batches registrar n m l tr m_end -> g ∈ l -> g ∈ tr.
Proof.
  revert m tr. induction l as [|f l IH]; intros m tr Hb Hg.
  - by apply elem_of_nil in Hg.
  - destruct Hb as (r1 & own & rest & _ & _ & _ & -> & Hb).
    apply elem_of_cons in Hg as [->|Hg]; [by left|].
    right. apply elem_of_app. right. by eapply IH.
Qed.

(** C1.  In every drain, the callbacks a running callback [f] pushes to
    the front all execute before every callback that was pending when [f]
    started: the trace is [f], then the drain of what [f] pushed (last
    pushed first), then the drain of the pending callbacks; when a pushed
    callback throws, no pending callback has run.  For the deque seeded
    with X, then Y, then Z (X pushed first), where Y pushes Y1 then Y2, the
    adapter holds X, Y, Z and the trace is exactly X, Y, Y2, Y1, Z. *)
Theorem pushed_run_before_pending :
  (forall registrar n m f pending r,
     drain registrar n m (f :: pending) = Some r ->
     eff_error (invoke registrar f m) = None ->
     let o := invoke registrar f m in
     exists r_new,
       drain registrar n (eff_module o) (rev (eff_pushed o)) = Some r_new /\
       match dr_error r_new with
       | Some e =>
           dr_trace r = f :: dr_trace r_new /\
           dr_remaining r = dr_remaining r_new ++ pending /\
           dr_error r = Some e
       | None =>
           (forall g, g ∈ eff_pushed o -> g ∈ dr_trace r_new) /\
           exists r_old,
             drain registrar n (dr_module r_new) pending = Some r_old /\
             dr_trace r = f :: dr_trace r_new ++ dr_trace r_old /\
             dr_error r = dr_error r_old
       end) /\
  callstackAdapter (push_all [Bind "X"; Bind "Y"; Bind "Z"] [])
  = [Bind "X"; Bind "Y"; Bind "Z"] /\
  dr_trace <$> drain scenario_registrar 5 ∅
                 (callstackAdapter (push_all [Bind "X"; Bind "Y"; Bind "Z"] []))
  = Some [Bind "X"; Bind "Y"; Bind "Y2"; Bind "Y1"; Bind "Z"].
Proof.
  split; [|split; vm_compute; reflexivity].
  intros registrar n m f pending r Hd He o.
  destruct n as [|n]; [done|].
  simpl in Hd. fold o in Hd. subst o. rewrite He in Hd.
  destruct (drain registrar n _ _) as [r'|] eqn:E; [|done].
  injection Hd as <-.
  rewrite push_all_rev in E.
  apply drain_app_inv in E as (r1 & H1 & H2).
  exists r1. split; [eapply drain_mono; [exact H1|lia]|].
  unfold then_drain in H2.
  destruct (dr_error r1) as [e|] eqn:E1.
  - injection H2 as <-. done.
  - destruct (drain registrar n (dr_module r1) pending) as [r2|] eqn:E2; [|done].
    simpl in H2. injection H2 as <-. split.
    + intros g Hg. eapply in_batches_runs_all.
      * by apply (drain_in_batches _ _ _ _ _ H1).
      * apply list_elem_of_In, in_rev. rewrite rev_involutive.
        by apply list_elem_of_In.
    + exists r2. split; [eapply drain_mono; [exact E2|lia]|done].
Qed.

(** The batch property on the drain of Y, Z where Y pushes Y1 and Y2. *)
Lemma pushed_run_before_pending_witness :
  let o := invoke scenario_registrar (Bind "Y") ∅ in
  let tr := [Bind "Y"; Bind "Y2"; Bind "Y1"; Bind "Z"] in
  let r := mkDrain (replay scenario_registrar ∅ tr) tr [] None in
  exists r_new,
    drain scenario_registrar 5 (eff_module o) (rev (eff_pushed o)) = Some r_new /\
    match dr_error r_new with
    | Some e =>
        dr_trace r = Bind "Y" :: dr_trace r_new /\
        dr_remaining r = dr_remaining r_new ++ [Bind "Z"] /\
        dr_error r = Some e
    | None =>
        (forall g, g ∈ eff_pushed o -> g ∈ dr_trace r_new) /\
        exists r_old,
          drain scenario_registrar 5 (dr_module r_new) [Bind "Z"] = Some r_old /\
          dr_trace r = Bind "Y" :: dr_trace r_new ++ dr_trace r_old /\
          dr_error r = dr_error r_old
    end.
Proof.
  intros o tr r.
  apply (proj1 pushed_run_before_pending scenario_registrar 5 ∅
           (Bind "Y") [Bind "Z"] r).
  - vm_compute. reflexivity.
  - vm_compute. reflexivity.
Defined.


Lemma CommonBindings_bind_drain registrar fuel m cs :
  CommonBindings_bind registrar fuel m cs
  = drain registrar (S fuel) m (Bind "CommonBindings" :: cs).
Proof. reflexivity. Qed.






(** ** Failure of a registration callback *)

Lemma set_metadata_log (b : BuildInfo) (m : PyModule) :
  (set_metadata b (m, [])).2 = SetAttr <$> metadata_names.
Proof. reflexivity. Qed.



(** ** The lambda at the end of the construction *)


Lemma adapter_ends_with_lambda (datatype_add node_add : deque -> deque) :
  callstackAdapter (build_callstack datatype_add node_add)
  = rev (callstack_of_areas datatype_add node_add) ++ [EndOfCallstack].
Proof. reflexivity. Qed.

(** C9 (amended).  Every enqueue of lines 56-71 is a [push_front] and the
    lambda is pushed last, so it is the front element of the deque; the
    adapter takes the deque from the other end, where the first push is,
    so the lambda is the end of the callstack: in a construction whose
    callbacks all return it is the last entry of the work-list to be
    invoked, after the common bindings and after every other enqueued
    callback, not before them. *)
Theorem sentinel_runs_last registrar datatype_add node_add fuel m r :
  initial_call_on_adapter registrar fuel m
    (build_callstack datatype_add node_add) = Some r ->
  dr_error r = None ->
  head (build_callstack datatype_add node_add) = Some EndOfCallstack /\
  last (callstackAdapter (build_callstack datatype_add node_add))
  = Some EndOfCallstack /\
  exists before,
    dr_trace r = before ++ [EndOfCallstack] /\
    forall g,
      g ∈ Bind "CommonBindings" :: callstack_of_areas datatype_add node_add ->
      g ∈ before.
Proof.
  intros Hd He. split; [done|].
  rewrite adapter_ends_with_lambda. split; [apply last_snoc|].
  unfold initial_call_on_adapter in Hd.
  rewrite CommonBindings_bind_drain, adapter_ends_with_lambda in Hd.
  rewrite app_comm_cons in Hd.
  apply drain_app_inv in Hd as (r1 & H1 & H2).
  unfold then_drain in H2.
  destruct (dr_error r1) as [e|] eqn:E1.
  { injection H2 as <-. done. }
  simpl in H2. rewrite drain_nil in H2. simpl in H2. injection H2 as <-.
  exists (dr_trace r1). split; [done|].
  intros g Hg. eapply in_batches_runs_all.
  - by apply (drain_in_batches _ _ _ _ _ H1).
  - apply elem_of_cons in Hg as [-> | Hg]; [by left|]. right.
    apply list_elem_of_In, in_rev. rewrite rev_involutive.
    by apply list_elem_of_In.
Qed.

(** The lambda last, on a construction whose areas only register
    themselves. *)
Lemma sentinel_runs_last_witness :
  exists r before,
    initial_call_on_adapter plain_registrar 14 ∅
      (build_callstack sample_datatype_add sample_node_add) = Some r /\
    dr_error r = None /\
    dr_trace r = before ++ [EndOfCallstack] /\
    Bind "RosBindings" ∈ before.
Proof.
  destruct (initial_call_on_adapter plain_registrar 14 ∅
              (build_callstack sample_datatype_add sample_node_add))
    as [r|] eqn:E; [|vm_compute in E; discriminate].
  assert (dr_error r = None) as He.
  { vm_compute in E. injection E as <-. reflexivity. }
  destruct (sentinel_runs_last plain_registrar sample_datatype_add
              sample_node_add 14 ∅ r E He) as (_ & _ & before & Ht & Hall).
  exists r, before. split; [reflexivity|]. split; [exact He|].
  split; [exact Ht|]. apply Hall. right. left.
Defined.

(** C9 as stated fails: with areas that only register themselves, the
    first entry the adapter hands out is the first callback pushed, and the
    lambda is the last callback invoked. *)
Lemma sentinel_is_not_first :
  head (callstackAdapter (build_callstack sample_datatype_add sample_node_add))
  = Some (Bind "DatatypeBindings") /\
  dr_trace <$>
    initial_call_on_adapter plain_registrar 14 ∅
      (build_callstack sample_datatype_add sample_node_add)
  = Some [Bind "CommonBindings"; Bind "DatatypeBindings"; Bind "LogBindings";
          Bind "VersionBindings"; Bind "DataQueueBindings";
          Bind "OpenVINOBindings"; Bind "NodeBindings";
          Bind "AssetManagerBindings"; Bind "PipelineBindings";
          Bind "XLinkBindings"; Bind "DeviceBindings";
          Bind "DeviceBootloaderBindings"; Bind "CalibrationHandlerBindings";
          Bind "RosBindings"; EndOfCallstack].
Proof. split; vm_compute; reflexivity. Qed.

(** ** The install-signal-handler option *)

(** What one [try] block does, case by case. *)
Lemma probe_run (py : Interpreter) (ns : string) (acc : bool) (log : list event) :
  probe py ns acc log
  = match py !! ns with
    | None => (acc, log ++ [Import ns])
    | Some d =>
        match d !! signalHandlerKey with
        | None => (acc, log ++ [Import ns; HasAttr ns signalHandlerKey])
        | Some v =>
            if acc
            then (match v with PyBool b => b | _ => true end,
                  log ++ [Import ns; HasAttr ns signalHandlerKey;
                          GetAttr ns signalHandlerKey])
            else (false, log ++ [Import ns; HasAttr ns signalHandlerKey])
        end
    end.
Proof.
  unfold probe, py_try_catch_all, py_bind, py_import, py_hasattr.
  destruct (py !! ns) as [d|]; simpl; [|done].
  destruct (d !! signalHandlerKey) as [v|] eqn:Ev; simpl.
  - destruct acc; simpl.
    + unfold py_attr_cast_bool. simpl. rewrite Ev.
      rewrite <- !app_assoc. simpl. by destruct v.
    + unfold py_ret. rewrite <- !app_assoc. done.
  - unfold py_ret. rewrite <- !app_assoc. done.
Qed.

Lemma probe_value (py : Interpreter) (ns : string) (acc : bool) (log : list event) :
  (probe py ns acc log).1
  = match found_flag py ns with Some b => acc && b | None => acc end.
Proof.
  rewrite probe_run. unfold found_flag.
  destruct (py !! ns) as [d|]; [|done].
  destruct (d !! signalHandlerKey) as [v|]; [|done].
  destruct acc, v; done.
Qed.

Lemma probe_failure_found (py : Interpreter) (ns : string) :
  ProbeFailure py ns -> found_flag py ns = None.
Proof.
  unfold found_flag. intros [H|d H1 H2|d v H1 H2 H3]; rewrite ?H, ?H1, ?H2; try done.
  destruct v; try done. by destruct (H3 b).
Qed.

Lemma resolve_value (py : Interpreter) (log : list event) :
  (resolve_installSignalHandler py log).1
  = forallb id (true :: omap (found_flag py) ["sys"; "builtins"]).
Proof.
  unfold resolve_installSignalHandler.
  destruct (probe py "sys" true log) as [a log1] eqn:E1.
  rewrite probe_value.
  assert (a = (probe py "sys" true log).1) as -> by (by rewrite E1).
  rewrite probe_value. simpl.
  destruct (found_flag py "sys") as [[]|], (found_flag py "builtins") as [[]|];
    done.
Qed.

(** C3.  The resolved flag is the conjunction of the default [true] and of
    every value found in the two namespaces: first true and second
    undefined give true; first false and second true give false; neither
    defined gives true; and a probe that fails (namespace absent, attribute
    absent, value that is not a [bool]) is swallowed and leaves the value
    accumulated so far as it was. *)
Theorem install_signal_handler_is_conjunction (py : Interpreter) (log : list event) :
  (resolve_installSignalHandler py log).1
  = forallb id (true :: omap (found_flag py) ["sys"; "builtins"]) /\
  (found_flag py "sys" = Some true -> found_flag py "builtins" = None ->
   (resolve_installSignalHandler py log).1 = true) /\
  (found_flag py "sys" = Some false -> found_flag py "builtins" = Some true ->
   (resolve_installSignalHandler py log).1 = false) /\
  (found_flag py "sys" = None -> found_flag py "builtins" = None ->
   (resolve_installSignalHandler py log).1 = true) /\
  (forall ns acc, ProbeFailure py ns -> (probe py ns acc log).1 = acc) /\
  (forall ns acc b, found_flag py ns = Some b ->
                    (probe py ns acc log).1 = acc && b).
Proof.
  rewrite resolve_value. simpl. repeat split.
  - by intros -> ->.
  - by intros -> ->.
  - by intros -> ->.
  - intros ns acc Hf. by rewrite probe_value, (probe_failure_found _ _ Hf).
  - intros ns acc b Hf. by rewrite probe_value, Hf.
Qed.

(** The three scenarios of the resolution, and the three kinds of probe. *)
Lemma install_signal_handler_is_conjunction_witness :
  (resolve_installSignalHandler interp_sys_true []).1 = true /\
  (resolve_installSignalHandler interp_sys_false_builtins_true []).1 = false /\
  (resolve_installSignalHandler interp_undefined []).1 = true /\
  (probe interp_wrong_type "sys" true []).1 = true /\
  (probe interp_wrong_type "os" false []).1 = false /\
  (probe interp_wrong_type "builtins" true []).1 = true && false.
Proof.
  destruct (install_signal_handler_is_conjunction interp_sys_true [])
    as (_ & Htrue & _).
  destruct (install_signal_handler_is_conjunction
              interp_sys_false_builtins_true []) as (_ & _ & Hfalse & _).
  destruct (install_signal_handler_is_conjunction interp_undefined [])
    as (_ & _ & _ & Hundef & _).
  destruct (install_signal_handler_is_conjunction interp_wrong_type [])
    as (_ & _ & _ & _ & Hfail & Hfound).
  split; [|split; [|split; [|split; [|split]]]].
  - apply Htrue; vm_compute; reflexivity.
  - apply Hfalse; vm_compute; reflexivity.
  - apply Hundef; vm_compute; reflexivity.
  - apply Hfail.
    apply (WrongType _ _ {[ signalHandlerKey := PyStr "no" ]} (PyStr "no"));
      [vm_compute; reflexivity | vm_compute; reflexivity | discriminate].
  - apply Hfail. apply NamespaceAbsent. vm_compute. reflexivity.
  - apply Hfound. vm_compute. reflexivity.
Defined.

Lemma probe_log (py : Interpreter) (ns : string) (acc : bool) (log : list event) :
  (probe py ns acc log).2 = log ++ probe_events py ns acc.
Proof.
  unfold probe_events. rewrite !probe_run.
  destruct (py !! ns) as [d|]; [|done].
  destruct (d !! signalHandlerKey) as [v|]; [|done].
  by destruct acc.
Qed.

Lemma probe_events_reads (py : Interpreter) (ns : string) (acc : bool) :
  head (probe_events py ns acc) = Some (Import ns) /\
  Forall (reads ns) (probe_events py ns acc).
Proof.
  unfold probe_events, reads. rewrite probe_run.
  destruct (py !! ns) as [d|];
    [destruct (d !! signalHandlerKey) as [v|]; [destruct acc|]|];
    (split; [done|]); simpl;
    repeat (constructor; [solve [auto]|]); constructor.
Qed.

Lemma resolve_log (py : Interpreter) (log : list event) :
  (resolve_installSignalHandler py log).2
  = log ++ probe_events py "sys" true
        ++ probe_events py "builtins" (probe py "sys" true []).1.
Proof.
  unfold resolve_installSignalHandler.
  destruct (probe py "sys" true log) as [a log1] eqn:E1.
  rewrite probe_log.
  assert (log1 = (probe py "sys" true log).2) as -> by (by rewrite E1).
  assert (a = (probe py "sys" true log).1) as -> by (by rewrite E1).
  rewrite probe_log, !probe_value. by rewrite <- app_assoc.
Qed.

Lemma found_flag_ext (py py' : Interpreter) (ns : string) :
  py !! ns ≫= (fun d => d !! signalHandlerKey)
  = py' !! ns ≫= (fun d => d !! signalHandlerKey) ->
  found_flag py ns = found_flag py' ns.
Proof.
  unfold found_flag.
  destruct (py !! ns) as [d|], (py' !! ns) as [d'|]; simpl; intros H.
  - by rewrite H.
  - by rewrite H.
  - by rewrite <- H.
  - done.
Qed.

Lemma found_flag_insert (py : Interpreter) (ns : string) (d : PyModule) (b : bool) :
  found_flag (<[ns := <[signalHandlerKey := PyBool b]> d]> py) ns = Some b.
Proof. unfold found_flag. by rewrite !lookup_insert_eq. Qed.

Lemma false_found_disables (py : Interpreter) (log : list event) :
  found_flag py "sys" = Some false \/ found_flag py "builtins" = Some false ->
  (resolve_installSignalHandler py log).1 = false.
Proof.
  rewrite resolve_value. simpl.
  destruct (found_flag py "sys") as [[]|], (found_flag py "builtins") as [[]|];
    simpl; intros [?|?]; done.
Qed.

Lemma probe_events_cases (py : Interpreter) (ns : string) (acc : bool) :
  probe_events py ns acc
  = match py !! ns with
    | None => [Import ns]
    | Some d =>
        match d !! signalHandlerKey with
        | None => [Import ns; HasAttr ns signalHandlerKey]
        | Some v =>
            if acc
            then [Import ns; HasAttr ns signalHandlerKey;
                  GetAttr ns signalHandlerKey]
            else [Import ns; HasAttr ns signalHandlerKey]
        end
    end.
Proof.
  unfold probe_events. rewrite probe_run.
  destruct (py !! ns) as [d|]; [|done].
  destruct (d !! signalHandlerKey); [|done]. by destruct acc.
Qed.

Lemma probe_events_accesses (py : Interpreter) (ns : string) (acc : bool) :
  probe_events py ns acc = option_accesses py ns acc.
Proof.
  rewrite probe_events_cases. unfold option_accesses.
  change "DEPTHAI_INSTALL_SIGNAL_HANDLER" with signalHandlerKey.
  destruct (py !! ns) as [d|]; [|done].
  destruct (d !! signalHandlerKey); [|done]. by destruct acc.
Qed.

(** C10.  The option is read under the one attribute name
    [DEPTHAI_INSTALL_SIGNAL_HANDLER], from the module [sys] and then from
    the module [builtins], and from nothing else: the probes make exactly
    the imports, attribute tests and attribute reads of that name on these
    two modules, in that order; the flag is the conjunction of what is
    found there, so that a false under that name in either module switches
    it off; and two interpreters that agree on that attribute of these two
    modules resolve the same flag. *)
Theorem flag_read_from_sys_then_builtins (py : Interpreter) (log : list event) :
  signalHandlerKey = "DEPTHAI_INSTALL_SIGNAL_HANDLER" /\
  (resolve_installSignalHandler py log).2
  = log ++ option_accesses py "sys" true
        ++ option_accesses py "builtins"
             (match found_flag py "sys" with Some b => b | None => true end) /\
  (resolve_installSignalHandler py log).1
  = forallb id (true :: omap (found_flag py) ["sys"; "builtins"]) /\
  (forall ns d,
     ns = "sys" \/ ns = "builtins" ->
     (resolve_installSignalHandler
        (<[ns := <["DEPTHAI_INSTALL_SIGNAL_HANDLER" := PyBool false]> d]> py)
        log).1 = false) /\
  (exists from_sys from_builtins,
     (resolve_installSignalHandler py log).2 = log ++ from_sys ++ from_builtins /\
     head from_sys = Some (Import "sys") /\
     Forall (reads "sys") from_sys /\
     head from_builtins = Some (Import "builtins") /\
     Forall (reads "builtins") from_builtins) /\
  imported (resolve_installSignalHandler py []).2 = ["sys"; "builtins"] /\
  (forall py' log',
     py' !! "sys" ≫= (fun d => d !! signalHandlerKey)
     = py !! "sys" ≫= (fun d => d !! signalHandlerKey) ->
     py' !! "builtins" ≫= (fun d => d !! signalHandlerKey)
     = py !! "builtins" ≫= (fun d => d !! signalHandlerKey) ->
     (resolve_installSignalHandler py' log').1
     = (resolve_installSignalHandler py log).1).
Proof.
  split; [done|]. split; [|split; [|split; [|split; [|split]]]].
  - rewrite resolve_log, probe_value, !probe_events_accesses.
    by destruct (found_flag py "sys") as [[]|].
  - apply resolve_value.
  - intros ns d Hns. apply false_found_disables.
    change "DEPTHAI_INSTALL_SIGNAL_HANDLER" with signalHandlerKey.
    destruct Hns as [-> | ->]; [left|right]; apply found_flag_insert.
  - eexists _, _. split; [apply resolve_log|].
    destruct (probe_events_reads py "sys" true) as [? ?].
    destruct (probe_events_reads py "builtins" (probe py "sys" true []).1)
      as [? ?].
    done.
  - rewrite resolve_log. simpl. unfold probe_events. rewrite !probe_run.
    destruct (py !! "sys") as [d|]; [destruct (d !! signalHandlerKey) as [[]|]|];
      simpl;
      (destruct (py !! "builtins") as [d'|];
       [destruct (d' !! signalHandlerKey) as [[]|]|]); simpl;
      repeat case_match; try done.
  - intros py' log' Hs Hb. rewrite !resolve_value. simpl.
    by rewrite (found_flag_ext _ _ _ Hs), (found_flag_ext _ _ _ Hb).
Qed.

(** Other modules and other attribute names do not count, and a false
    under the name in [builtins] does. *)
Lemma flag_read_from_sys_then_builtins_witness :
  (resolve_installSignalHandler interp_other_modules [Import "os"]).1
  = (resolve_installSignalHandler interp_sys_false_builtins_true []).1 /\
  (resolve_installSignalHandler
     (<["builtins" := <["DEPTHAI_INSTALL_SIGNAL_HANDLER" := PyBool false]>
                        {[ "len" := PyOpaque "<built-in function len>" ]}]>
        interp_sys_true) []).1 = false.
Proof.
  destruct (flag_read_from_sys_then_builtins
              interp_sys_false_builtins_true [])
    as (_ & _ & _ & _ & _ & _ & Hsame).
  destruct (flag_read_from_sys_then_builtins interp_sys_true [])
    as (_ & _ & _ & Hoff & _).
  split.
  - apply Hsame; vm_compute; reflexivity.
  - apply Hoff. right. reflexivity.
Defined.

(** ** The module body, stage by stage *)

Section ModuleBodyFacts.

Variable build : BuildInfo.
Variables datatype_add node_add : deque -> deque.
Variable initial_call : PyModule -> deque -> option DrainResult.
Variable py : Interpreter.

Lemma module_init_run (initialize : string -> bool -> option exn) (m0 : PyModule) :
  module_init build datatype_add node_add initial_call py initialize m0
  = match initial_call (set_metadata build (m0, [])).1
                       (build_callstack datatype_add node_add) with
    | None => None
    | Some r =>
        match dr_error r with
        | Some e =>
            Some (mkInit (Propagated e) (dr_module r) (log_after_bindings r))
        | None =>
            let res := resolve_installSignalHandler py (log_after_bindings r) in
            let log := res.2 ++ [Initialize (banner build) res.1] in
            match initialize (banner build) res.1 with
            | Some (NonStdException w) =>
                Some (mkInit (Propagated (NonStdException w)) (dr_module r) log)
            | _ => Some (mkInit Constructed (dr_module r) log)
            end
        end
    end.
Proof.
  unfold module_init.
  change (set_metadata build (m0, []))
    with ((set_metadata build (m0, [])).1, SetAttr <$> metadata_names).
  cbv beta iota zeta.
  destruct (initial_call _ _) as [r|]; [|done]. cbn [mbind option_bind].
  unfold log_after_bindings.
  destruct (dr_error r); [done|].
  destruct (resolve_installSignalHandler py _) as [f l].
  simpl. by destruct (initialize (banner build) f) as [[]|].
Qed.

Lemma initialize_calls_app (l1 l2 : list event) :
  initialize_calls (l1 ++ l2) = initialize_calls l1 ++ initialize_calls l2.
Proof. apply omap_app. Qed.

Lemma initialize_calls_probe (ns : string) (acc : bool) :
  initialize_calls (probe_events py ns acc) = [].
Proof.
  destruct (probe_events_reads py ns acc) as [_ H].
  induction H as [|ev l Hev _ IH]; [done|].
  unfold reads in Hev. simpl. by destruct Hev as [-> | [-> | ->]].
Qed.

Lemma initialize_calls_after_bindings (r : DrainResult) :
  initialize_calls (log_after_bindings r) = [].
Proof.
  unfold log_after_bindings. rewrite initialize_calls_app. simpl.
  induction (dr_trace r) as [|f tr IH]; done.
Qed.

Lemma initialize_calls_resolve (r : DrainResult) :
  initialize_calls (resolve_installSignalHandler py (log_after_bindings r)).2
  = [].
Proof.
  rewrite resolve_log, !initialize_calls_app, !initialize_calls_probe.
  by rewrite initialize_calls_after_bindings.
Qed.

End ModuleBodyFacts.

(** C4 (amended).  Every failure of [dai::initialize] that is a
    [std::exception] is caught and discarded inside the module body: the
    body ends exactly as it does when the call returns, so it completes
    successfully whenever the bindings were registered without error. *)
Theorem initialize_failure_discarded
    build datatype_add node_add initial_call py initialize m0 :
  (forall s f w, initialize s f <> Some (NonStdException w)) ->
  module_init build datatype_add node_add initial_call py initialize m0
  = module_init build datatype_add node_add initial_call py
                (fun _ _ => None) m0 /\
  (forall r,
     initial_call (set_metadata build (m0, [])).1
                  (build_callstack datatype_add node_add) = Some r ->
     dr_error r = None ->
     completion <$> module_init build datatype_add node_add initial_call py
                                initialize m0
     = Some Constructed).
Proof.
  intros Hstd. rewrite !module_init_run. split.
  - destruct (initial_call _ _) as [r|]; [|done].
    destruct (dr_error r); [done|]. cbv zeta.
    destruct (initialize _ _) as [[w|w]|] eqn:E; try done.
    by destruct (Hstd _ _ _ E).
  - intros r -> ->. cbv zeta.
    destruct (initialize _ _) as [[w|w]|] eqn:E; try done.
    by destruct (Hstd _ _ _ E).
Qed.

(** [dai::initialize] throws a [std::runtime_error]: the module is
    constructed all the same. *)
Lemma initialize_failure_discarded_witness :
  module_init sample_build sample_datatype_add sample_node_add
              (CommonBindings_bind plain_registrar 14) interp_undefined
              initialize_runtime_error ∅
  = module_init sample_build sample_datatype_add sample_node_add
                (CommonBindings_bind plain_registrar 14) interp_undefined
                (fun _ _ => None) ∅ /\
  completion <$> module_init sample_build sample_datatype_add sample_node_add
                   (CommonBindings_bind plain_registrar 14) interp_undefined
                   initialize_runtime_error ∅
  = Some Constructed.
Proof.
  destruct (initialize_failure_discarded sample_build sample_datatype_add
              sample_node_add (CommonBindings_bind plain_registrar 14)
              interp_undefined initialize_runtime_error ∅) as [Heq Hok].
  - intros s f w. discriminate.
  - split; [exact Heq|].
    destruct (CommonBindings_bind plain_registrar 14
                (set_metadata sample_build (∅, [])).1
                (build_callstack sample_datatype_add sample_node_add))
      as [r|] eqn:E; [|vm_compute in E; discriminate].
    apply (Hok r eq_refl).
    vm_compute in E. injection E as <-. reflexivity.
Defined.

(** C4 as stated fails: an object thrown by [dai::initialize] that is not a
    [std::exception] passes the handler of line 101 and leaves the module
    body, although all bindings were registered. *)
Lemma foreign_throw_escapes :
  completion <$> module_init sample_build sample_datatype_add sample_node_add
                   (CommonBindings_bind plain_registrar 14) interp_undefined
                   initialize_foreign_throw ∅
  = Some (Propagated (NonStdException "int")) /\
  completion <$> module_init sample_build sample_datatype_add sample_node_add
                   (CommonBindings_bind plain_registrar 14) interp_undefined
                   (fun _ _ => None) ∅
  = Some Constructed.
Proof. split; vm_compute; reflexivity. Qed.

(** C6.  [dai::initialize] is called exactly once in a module construction
    whose initial call returned without error, as the last action of the
    body, after every callback invocation and after the option was
    resolved; when the initial call throws, it is not called at all; and
    the body does not reach it while the initial call has not returned. *)
Theorem initialize_once_after_bindings
    build datatype_add node_add initial_call py initialize m0 :
  match initial_call (set_metadata build (m0, [])).1
                     (build_callstack datatype_add node_add) with
  | None =>
      module_init build datatype_add node_add initial_call py initialize m0
      = None
  | Some r =>
      exists res,
        module_init build datatype_add node_add initial_call py initialize m0
        = Some res /\
        match dr_error r with
        | None =>
            let flag :=
              (resolve_installSignalHandler py (log_after_bindings r)).1 in
            exists probes,
              log res = (log_after_bindings r ++ probes)
                        ++ [Initialize (banner build) flag] /\
              initialize_calls (log_after_bindings r ++ probes) = [] /\
              initialize_calls (log res) = [(banner build, flag)]
        | Some e =>
            completion res = Propagated e /\
            log res = log_after_bindings r /\
            initialize_calls (log res) = []
        end
  end.
Proof.
  rewrite module_init_run.
  destruct (initial_call _ _) as [r|]; [|done].
  destruct (dr_error r) as [e|].
  - eexists. split; [done|]. split; [done|]. split; [done|].
    apply initialize_calls_after_bindings.
  - cbv zeta.
    assert (exists probes,
              (resolve_installSignalHandler py (log_after_bindings r)).2
              = log_after_bindings r ++ probes) as [probes Hp].
    { rewrite resolve_log. by eexists. }
    pose proof (initialize_calls_resolve py r) as Hnone.
    destruct (initialize _ _) as [[w|w]|];
      (eexists; split; [done|]); exists probes; cbn [log];
      rewrite Hp in Hnone |- *;
      (split; [done|]); (split; [exact Hnone|]);
      rewrite initialize_calls_app, Hnone; done.
Qed.

(** ** The metadata attributes *)

(** Binding areas that leave an attribute alone leave it alone along a
    whole drain. *)
Lemma replay_keeps registrar (k : string) (m : PyModule) (tr : list StackFunction) :
  (forall area m', eff_module (registrar area m') !! k = m' !! k) ->
  replay registrar m tr !! k = m !! k.
Proof.
  intros Hkeep. revert m. induction tr as [|f tr IH]; intros m; [done|].
  change (replay registrar m (f :: tr))
    with (replay registrar (eff_module (invoke registrar f m)) tr).
  rewrite IH. destruct f; [apply Hkeep|done].
Qed.

Lemma drain_keeps registrar (k : string) n m wl r :
  (forall area m', eff_module (registrar area m') !! k = m' !! k) ->
  drain registrar n m wl = Some r -> dr_module r !! k = m !! k.
Proof.
  intros Hkeep Hd. rewrite (drain_module _ _ _ _ _ Hd). by apply replay_keeps.
Qed.

Lemma set_metadata_lookup (b : BuildInfo) (m : PyModule) :
  let m' := (set_metadata b (m, [])).1 in
  m' !! "__version__" = Some (PyStr (DEPTHAI_PYTHON_VERSION b)) /\
  m' !! "__commit__" = Some (PyStr (DEPTHAI_PYTHON_COMMIT_HASH b)) /\
  m' !! "__commit_datetime__" = Some (PyStr (DEPTHAI_PYTHON_COMMIT_DATETIME b)) /\
  m' !! "__build_datetime__" = Some (PyStr (DEPTHAI_PYTHON_BUILD_DATETIME b)) /\
  m' !! "__device_version__" = Some (PyStr (DEVICE_VERSION b)) /\
  m' !! "__bootloader_version__" = Some (PyStr (BOOTLOADER_VERSION b)) /\
  m' !! "__device_rvc3_version__" = Some (PyStr (DEVICE_RVC3_VERSION b)).
Proof.
  unfold set_metadata, setattr_str. simpl.
  repeat split; by simplify_map_eq.
Qed.

Lemma set_metadata_frame (b : BuildInfo) (m : PyModule) (k : string) :
  k ∉ metadata_names -> (set_metadata b (m, [])).1 !! k = m !! k.
Proof.
  unfold set_metadata, setattr_str, metadata_names. simpl. intros Hk.
  rewrite !lookup_insert_ne; [done|..]; intros <-; apply Hk; set_solver.
Qed.

(** C8 (amended).  The module body sets the seven metadata attributes,
    each to a string and each exactly once, before the initial call, and
    writes no other attribute itself; after the initial call it never
    writes the module again, so the constructed module is the one the
    binding callbacks left.  The attributes are ordinary module attributes,
    not immutable ones: the constructed module shows each of the seven
    strings, next to what the callbacks attached, provided the callbacks
    left that name alone. *)
Theorem metadata_attributes
    build datatype_add node_add initial_call py initialize m0 res :
  module_init build datatype_add node_add initial_call py initialize m0
  = Some res ->
  let m := (set_metadata build (m0, [])).1 in
  (m !! "__version__" = Some (PyStr (DEPTHAI_PYTHON_VERSION build)) /\
   m !! "__commit__" = Some (PyStr (DEPTHAI_PYTHON_COMMIT_HASH build)) /\
   m !! "__commit_datetime__"
     = Some (PyStr (DEPTHAI_PYTHON_COMMIT_DATETIME build)) /\
   m !! "__build_datetime__"
     = Some (PyStr (DEPTHAI_PYTHON_BUILD_DATETIME build)) /\
   m !! "__device_version__" = Some (PyStr (DEVICE_VERSION build)) /\
   m !! "__bootloader_version__" = Some (PyStr (BOOTLOADER_VERSION build)) /\
   m !! "__device_rvc3_version__" = Some (PyStr (DEVICE_RVC3_VERSION build))) /\
  (forall k, k ∉ metadata_names -> m !! k = m0 !! k) /\
  attribute_writes (log res) = metadata_names /\
  NoDup metadata_names /\ length metadata_names = 7 /\
  exists r,
    initial_call m (build_callstack datatype_add node_add) = Some r /\
    module res = dr_module r /\
    (forall k, k ∈ metadata_names -> dr_module r !! k = m !! k ->
               module res !! k = m !! k /\
               exists s, module res !! k = Some (PyStr s)).
Proof.
  intros Hres m.
  split; [apply set_metadata_lookup|].
  split; [intros k; apply set_metadata_frame|].
  rewrite module_init_run in Hres. fold m in Hres.
  destruct (initial_call m _) as [r|]; [|done].
  assert (attribute_writes (log_after_bindings r) = metadata_names) as Hw.
  { unfold log_after_bindings, attribute_writes. rewrite omap_app. simpl.
    induction (dr_trace r) as [|f tr IH]; done. }
  assert (attribute_writes
            (resolve_installSignalHandler py (log_after_bindings r)).2
          = metadata_names) as Hw'.
  { rewrite resolve_log. unfold attribute_writes in *. rewrite !omap_app, Hw.
    assert (forall ns acc,
              omap (fun ev => match ev with SetAttr name => Some name
                                       | _ => None end)
                   (probe_events py ns acc) = []) as Hnone.
    { intros ns acc. destruct (probe_events_reads py ns acc) as [_ H].
      induction H as [|ev l Hev _ IH]; [done|].
      unfold reads in Hev. simpl. by destruct Hev as [-> | [-> | ->]]. }
    by rewrite !Hnone. }
  assert (module res = dr_module r /\ attribute_writes (log res) = metadata_names)
    as [Hm Hl].
  { destruct (dr_error r); [by injection Hres as <-|]. cbv zeta in Hres.
    destruct (initialize _ _) as [[w|w]|]; injection Hres as <-; simpl;
      (split; [done|]); unfold attribute_writes in *;
      rewrite omap_app, Hw'; done. }
  split; [done|]. split.
  { apply (bool_decide_unpack _). vm_compute. exact I. }
  split; [done|]. exists r. split; [done|]. split; [done|].
  intros k Hk Hkeep. rewrite Hm, Hkeep. split; [done|].
  destruct (set_metadata_lookup build m0) as (H1 & H2 & H3 & H4 & H5 & H6 & H7).
  fold m in H1, H2, H3, H4, H5, H6, H7.
  unfold metadata_names in Hk.
  repeat (apply elem_of_cons in Hk as [->|Hk]; [by eexists|]).
  by apply elem_of_nil in Hk.
Qed.

(** The version attribute of a constructed module. *)
Lemma metadata_attributes_witness :
  exists res s,
    module_init sample_build sample_datatype_add sample_node_add
                (CommonBindings_bind plain_registrar 14) interp_undefined
                initialize_runtime_error ∅ = Some res /\
    module res !! "__version__" = Some (PyStr s) /\
    attribute_writes (log res) = metadata_names.
Proof.
  destruct (module_init sample_build sample_datatype_add sample_node_add
              (CommonBindings_bind plain_registrar 14) interp_undefined
              initialize_runtime_error ∅) as [res|] eqn:E;
    [|vm_compute in E; discriminate].
  destruct (metadata_attributes _ _ _ _ _ _ _ res E)
    as (_ & _ & Hw & _ & _ & r & Hic & _ & Hkeep).
  destruct (Hkeep "__version__") as [_ [s Hs]].
  - constructor.
  - vm_compute in Hic. injection Hic as <-. vm_compute. reflexivity.
  - exists res, s. split; [reflexivity|]. split; [exact Hs|exact Hw].
Defined.


(** C8 as stated fails: the attributes are not immutable.  An initial
    call whose bindings assign the version attribute again and delete the
    commit attribute leaves a constructed module without these two
    strings. *)
Lemma metadata_is_mutable :
  exists res,
    module_init sample_build sample_datatype_add sample_node_add
                overwriting_call interp_undefined (fun _ _ => None) ∅
    = Some res /\
    completion res = Constructed /\
    module res !! "__version__" = Some (PyOpaque "<class 'depthai.Version'>") /\
    module res !! "__commit__" = None.
Proof. eexists. split; [vm_compute; reflexivity|]. by vm_compute. Qed.

(** ** Further properties of the option resolution (lines 79-96) *)

Lemma found_flag_insert_ne (py : Interpreter) (ns ns' : string) (d : PyModule) :
  ns <> ns' -> found_flag (<[ns := d]> py) ns' = found_flag py ns'.
Proof. intros Hne. unfold found_flag. by rewrite lookup_insert_ne. Qed.

Lemma found_flag_insert_eq (py : Interpreter) (ns : string) (d : PyModule) :
  found_flag (<[ns := d]> py) ns
  = match d !! signalHandlerKey with Some (PyBool b) => Some b | _ => None end.
Proof. unfold found_flag. by rewrite lookup_insert_eq. Qed.

Lemma found_flag_lookup (py : Interpreter) (ns : string) (d : PyModule) :
  py !! ns = Some d ->
  found_flag py ns
  = match d !! signalHandlerKey with Some (PyBool b) => Some b | _ => None end.
Proof. intros H. unfold found_flag. by rewrite H. Qed.

(** X1.  The signal handler is switched off exactly when [sys] or
    [builtins] holds, under the name of the option, an object that
    [cast<bool>] loads as false: nothing else switches it off, and a true
    found in the other namespace does not switch it back on. *)
Theorem flag_false_iff (py : Interpreter) (log : list event) :
  (resolve_installSignalHandler py log).1 = false <->
  found_flag py "sys" = Some false \/ found_flag py "builtins" = Some false.
Proof.
  rewrite resolve_value. simpl.
  destruct (found_flag py "sys") as [[]|], (found_flag py "builtins") as [[]|];
    simpl; split; try done; try (intros [?|?]; done); auto.
Qed.

Lemma flag_false_iff_witness :
  (resolve_installSignalHandler interp_sys_false_builtins_true []).1 = false /\
  (found_flag interp_wrong_type "sys" = Some false \/
   found_flag interp_wrong_type "builtins" = Some false).
Proof.
  split.
  - apply (proj2 (flag_false_iff interp_sys_false_builtins_true [])).
    left. vm_compute. reflexivity.
  - apply (proj1 (flag_false_iff interp_wrong_type [])).
    vm_compute. reflexivity.
Defined.

(** X2.  Assigning [False] to the option in [sys] or in [builtins] before
    the import switches the handler off, whatever that module and the rest
    of the interpreter hold. *)
Theorem flag_disabled_by_assignment
    (py : Interpreter) (ns : string) (d : PyModule) (log : list event) :
  ns = "sys" \/ ns = "builtins" ->
  (resolve_installSignalHandler
     (<[ns := <[signalHandlerKey := PyBool false]> d]> py) log).1 = false.
Proof.
  intros Hns. apply false_found_disables.
  destruct Hns as [-> | ->]; [left|right]; apply found_flag_insert.
Qed.

(** A user sets the option to false in [sys], next to what [sys] holds. *)
Lemma flag_disabled_by_assignment_witness :
  (resolve_installSignalHandler
     (<["sys" := <[signalHandlerKey := PyBool false]>
                   {[ "platform" := PyStr "linux" ]}]> interp_sys_true) []).1
  = false.
Proof.
  apply (flag_disabled_by_assignment interp_sys_true "sys"
           {[ "platform" := PyStr "linux" ]} []).
  left. reflexivity.
Defined.

(** X3.  The [&&] of lines 84 and 92 short-circuits: once the local is
    false a probe keeps it false and does not read the attribute at all, so
    when [sys] says false the value in [builtins] is never fetched, and its
    type cannot matter. *)
Theorem false_is_kept_without_reading
    (py : Interpreter) (ns key : string) (log : list event) :
  (probe py ns false log).1 = false /\
  (GetAttr ns key ∉ probe_events py ns false) /\
  (found_flag py "sys" = Some false ->
   GetAttr "builtins" key ∉ (resolve_installSignalHandler py []).2).
Proof.
  split; [|split].
  - rewrite probe_value. by destruct (found_flag py ns).
  - rewrite probe_events_cases.
    destruct (py !! ns) as [d|]; [destruct (d !! signalHandlerKey)|];
      intros H; repeat (apply elem_of_cons in H as [H|H]; [done|]);
      by apply elem_of_nil in H.
  - intros Hsys. rewrite resolve_log, probe_value, Hsys. simpl.
    rewrite !probe_events_cases.
    intros H. apply elem_of_app in H as [H|H].
    + destruct (py !! "sys") as [d|]; [destruct (d !! signalHandlerKey)|];
        repeat (apply elem_of_cons in H as [H|H]; [done|]);
        by apply elem_of_nil in H.
    + destruct (py !! "builtins") as [d|]; [destruct (d !! signalHandlerKey)|];
        repeat (apply elem_of_cons in H as [H|H]; [done|]);
        by apply elem_of_nil in H.
Qed.

(** [sys] says false and [builtins] holds a string under the name. *)
Lemma false_is_kept_without_reading_witness :
  (GetAttr "builtins" signalHandlerKey)
  ∉ (resolve_installSignalHandler
       (<["builtins" := {[ signalHandlerKey := PyStr "yes" ]}]>
          interp_sys_false_builtins_true) []).2.
Proof.
  apply (false_is_kept_without_reading
           (<["builtins" := {[ signalHandlerKey := PyStr "yes" ]}]>
              interp_sys_false_builtins_true)
           "builtins" signalHandlerKey []).
  vm_compute. reflexivity.
Defined.

(** X4.  The attribute is fetched only behind [py::hasattr]: a probe reads
    it only under the name of the option, only from a module that was
    imported and has it, and only while the local is still true; the
    attribute lookup itself can therefore never fail. *)
Theorem attribute_read_only_when_present
    (py : Interpreter) (ns key : string) (acc : bool) :
  GetAttr ns key ∈ probe_events py ns acc ->
  key = signalHandlerKey /\ acc = true /\
  HasAttr ns signalHandlerKey ∈ probe_events py ns acc /\
  exists d v, py !! ns = Some d /\ d !! signalHandlerKey = Some v.
Proof.
  rewrite probe_events_cases.
  destruct (py !! ns) as [d|];
    [destruct (d !! signalHandlerKey) as [v|] eqn:Ev|];
    [destruct acc|..]; intros H;
    repeat (apply elem_of_cons in H as [H|H]; [try done|]);
    try (by apply elem_of_nil in H).
  assert (key = signalHandlerKey) as -> by congruence.
  split; [done|]. split; [done|]. split; [|by eexists _, _].
  apply elem_of_cons. right. apply elem_of_cons. by left.
Qed.

Lemma attribute_read_only_when_present_witness :
  GetAttr "sys" signalHandlerKey ∈ probe_events interp_sys_true "sys" true /\
  exists d v, interp_sys_true !! "sys" = Some d /\
              d !! signalHandlerKey = Some v.
Proof.
  assert (GetAttr "sys" signalHandlerKey
          ∈ probe_events interp_sys_true "sys" true) as H.
  { vm_compute. apply elem_of_cons. right. apply elem_of_cons. right.
    apply elem_of_cons. by left. }
  split; [exact H|].
  exact (proj2 (proj2 (proj2
    (attribute_read_only_when_present interp_sys_true "sys"
       signalHandlerKey true H)))).
Defined.

(** X5.  The resolved flag does not depend on which of the two modules
    holds which value: exchanging the contents of [sys] and [builtins] gives
    the same flag. *)
Theorem flag_symmetric
    (py : Interpreter) (s b : PyModule) (log : list event) :
  py !! "sys" = Some s -> py !! "builtins" = Some b ->
  (resolve_installSignalHandler
     (<["sys" := b]> (<["builtins" := s]> py)) log).1
  = (resolve_installSignalHandler py log).1.
Proof.
  intros Hs Hb. rewrite !resolve_value. simpl.
  rewrite found_flag_insert_eq.
  rewrite (found_flag_insert_ne _ "sys" "builtins") by done.
  rewrite found_flag_insert_eq.
  rewrite (found_flag_lookup _ _ _ Hs), (found_flag_lookup _ _ _ Hb).
  destruct (s !! signalHandlerKey) as [[|[]|]|],
           (b !! signalHandlerKey) as [[|[]|]|]; done.
Qed.

Lemma flag_symmetric_witness :
  (resolve_installSignalHandler
     (<["sys" := {[ signalHandlerKey := PyBool true ]}]>
        (<["builtins" := {[ signalHandlerKey := PyBool false ]}]>
           interp_sys_false_builtins_true)) []).1
  = (resolve_installSignalHandler interp_sys_false_builtins_true []).1.
Proof.
  apply (flag_symmetric interp_sys_false_builtins_true
           {[ signalHandlerKey := PyBool false ]}
           {[ signalHandlerKey := PyBool true ]} []);
    vm_compute; reflexivity.
Defined.

(** ** Further properties of the module body (lines 44-105) *)

(** X6.  Once the initial call has returned, the module body ends: it
    ends normally exactly when the initial call threw nothing and
    [dai::initialize] threw nothing but a [std::exception]; and a
    [std::exception] that leaves the body is always the one the initial
    call threw, never one of the probes or of [dai::initialize]. *)
Theorem module_init_outcome
    build datatype_add node_add initial_call py initialize m0 r :
  initial_call (set_metadata build (m0, [])).1
               (build_callstack datatype_add node_add) = Some r ->
  exists res,
    module_init build datatype_add node_add initial_call py initialize m0
    = Some res /\
    (completion res = Constructed <->
     dr_error r = None /\
     forall w,
       initialize (banner build)
         (resolve_installSignalHandler py (log_after_bindings r)).1
       <> Some (NonStdException w)) /\
    (forall what,
       completion res = Propagated (StdException what) ->
       dr_error r = Some (StdException what)).
Proof.
  intros Hr. rewrite module_init_run, Hr.
  destruct (dr_error r) as [e|].
  - eexists. split; [done|]. split.
    + split; [done|]. by intros [? _].
    + by intros what [= ->].
  - cbv zeta.
    destruct (initialize _ _) as [[w|w]|] eqn:E; eexists;
      (split; [reflexivity|]); cbn [completion]; (split; [split|]).
    + intros _. split; [reflexivity|]. intros w'. discriminate.
    + reflexivity.
    + intros what. discriminate.
    + discriminate.
    + intros [_ H]. by destruct (H w).
    + intros what. discriminate.
    + intros _. split; [reflexivity|]. intros w'. discriminate.
    + reflexivity.
    + intros what. discriminate.
Qed.

(** The pipeline bindings throw a [std::exception]: it is the one that
    leaves the body. *)
Lemma module_init_outcome_witness :
  exists r res,
    CommonBindings_bind failing_registrar 20
      (set_metadata sample_build (∅, [])).1
      (build_callstack sample_datatype_add sample_node_add) = Some r /\
    module_init sample_build sample_datatype_add sample_node_add
                (CommonBindings_bind failing_registrar 20) interp_undefined
                initialize_foreign_throw ∅ = Some res /\
    completion res
    = Propagated (StdException "generic_type: type is already registered") /\
    dr_error r
    = Some (StdException "generic_type: type is already registered").
Proof.
  destruct (CommonBindings_bind failing_registrar 20
              (set_metadata sample_build (∅, [])).1
              (build_callstack sample_datatype_add sample_node_add))
    as [r|] eqn:E; [|vm_compute in E; discriminate].
  destruct (module_init_outcome sample_build sample_datatype_add
              sample_node_add (CommonBindings_bind failing_registrar 20)
              interp_undefined initialize_foreign_throw ∅ r E)
    as (res & Hres & _ & Hstd).
  exists r, res. split; [reflexivity|]. split; [exact Hres|].
  assert (completion res
          = Propagated (StdException "generic_type: type is already registered"))
    as Hc.
  { vm_compute in Hres. injection Hres as <-. reflexivity. }
  split; [exact Hc|]. exact (Hstd _ Hc).
Defined.

Lemma imported_app (l1 l2 : list event) :
  imported (l1 ++ l2) = imported l1 ++ imported l2.
Proof. apply omap_app. Qed.

Lemma imported_after_bindings (r : DrainResult) :
  imported (log_after_bindings r) = [].
Proof.
  unfold log_after_bindings. rewrite imported_app. simpl.
  induction (dr_trace r) as [|f tr IH]; done.
Qed.

Lemma imported_probe (py : Interpreter) (ns : string) (acc : bool) :
  imported (probe_events py ns acc) = [ns].
Proof.
  rewrite probe_events_cases.
  destruct (py !! ns) as [d|]; [destruct (d !! signalHandlerKey)|];
    [destruct acc|..]; done.
Qed.

(** X8.  The body works in stages, and the log shows them in order: the
    seven attribute writes, the callback invocations, the probe of [sys],
    the probe of [builtins], the call of [dai::initialize].  When the
    initial call throws, the log stops after the invocations: the option
    is not probed at all. *)
Theorem stages_in_order
    build datatype_add node_add initial_call py initialize m0 res :
  module_init build datatype_add node_add initial_call py initialize m0
  = Some res ->
  exists r,
    initial_call (set_metadata build (m0, [])).1
                 (build_callstack datatype_add node_add) = Some r /\
    match dr_error r with
    | Some _ =>
        log res = (SetAttr <$> metadata_names) ++ (Invoke <$> dr_trace r) /\
        imported (log res) = []
    | None =>
        exists from_sys from_builtins flag,
          log res = (SetAttr <$> metadata_names) ++ (Invoke <$> dr_trace r)
                    ++ from_sys ++ from_builtins
                    ++ [Initialize (banner build) flag] /\
          Forall (reads "sys") from_sys /\
          Forall (reads "builtins") from_builtins /\
          imported (log res) = ["sys"; "builtins"]
    end.
Proof.
  rewrite module_init_run.
  destruct (initial_call _ _) as [r|]; [|done]. intros Hres.
  exists r. split; [done|].
  destruct (dr_error r) as [e|].
  - injection Hres as <-. simpl. split; [done|].
    apply imported_after_bindings.
  - cbv zeta in Hres.
    set (flag := (resolve_installSignalHandler py (log_after_bindings r)).1)
      in *.
    exists (probe_events py "sys" true),
           (probe_events py "builtins" (probe py "sys" true []).1), flag.
    assert (log res
            = (resolve_installSignalHandler py (log_after_bindings r)).2
              ++ [Initialize (banner build) flag]) as ->.
    { destruct (initialize _ _) as [[w|w]|]; by injection Hres as <-. }
    rewrite resolve_log. unfold log_after_bindings at 1.
    split; [by rewrite <- !app_assoc|].
    split; [apply probe_events_reads|]. split; [apply probe_events_reads|].
    rewrite !imported_app, imported_after_bindings, !imported_probe. done.
Qed.

Lemma stages_in_order_witness :
  exists res r,
    module_init sample_build sample_datatype_add sample_node_add
                (CommonBindings_bind failing_registrar 20) interp_sys_true
                (fun _ _ => None) ∅ = Some res /\
    CommonBindings_bind failing_registrar 20
      (set_metadata sample_build (∅, [])).1
      (build_callstack sample_datatype_add sample_node_add) = Some r /\
    match dr_error r with
    | Some _ =>
        log res = (SetAttr <$> metadata_names) ++ (Invoke <$> dr_trace r) /\
        imported (log res) = []
    | None =>
        exists from_sys from_builtins flag,
          log res = (SetAttr <$> metadata_names) ++ (Invoke <$> dr_trace r)
                    ++ from_sys ++ from_builtins
                    ++ [Initialize (banner sample_build) flag] /\
          Forall (reads "sys") from_sys /\
          Forall (reads "builtins") from_builtins /\
          imported (log res) = ["sys"; "builtins"]
    end.
Proof.
  destruct (module_init sample_build sample_datatype_add sample_node_add
              (CommonBindings_bind failing_registrar 20) interp_sys_true
              (fun _ _ => None) ∅) as [res|] eqn:E;
    [|vm_compute in E; discriminate].
  destruct (stages_in_order _ _ _ _ _ _ _ res E) as (r & Hr & Hlog).
  exists res, r. split; [reflexivity|]. split; [exact Hr|exact Hlog].
Defined.

(** ** Further properties of the metadata attributes (lines 47-53) *)

Lemma set_metadata_names_lookup (b : BuildInfo) (m m' : PyModule) (k : string) :
  k ∈ metadata_names ->
  (set_metadata b (m, [])).1 !! k = (set_metadata b (m', [])).1 !! k.
Proof.
  intros Hin.
  pose proof (set_metadata_lookup b m) as H1.
  pose proof (set_metadata_lookup b m') as H2.
  cbv zeta in H1, H2. destruct_and!.
  unfold metadata_names in Hin.
  repeat (apply elem_of_cons in Hin as [-> | Hin]; [congruence|]).
  by apply elem_of_nil in Hin.
Qed.

(** X9.  The seven assignments overwrite: what the module held under these
    names before does not survive, so two modules that agree on all other
    names come out equal, and running the assignments again, also with
    other build constants first, gives the module of the last run. *)
Theorem metadata_overwritten (b b' : BuildInfo) (m m' : PyModule) :
  ((forall k, k ∉ metadata_names -> m !! k = m' !! k) ->
   (set_metadata b (m, [])).1 = (set_metadata b (m', [])).1) /\
  (set_metadata b ((set_metadata b' (m, [])).1, [])).1
  = (set_metadata b (m, [])).1.
Proof.
  assert (forall m1 m2 : PyModule,
            (forall k, k ∉ metadata_names -> m1 !! k = m2 !! k) ->
            (set_metadata b (m1, [])).1 = (set_metadata b (m2, [])).1) as Hdet.
  { intros m1 m2 Hout. apply map_eq. intros k.
    destruct (decide (k ∈ metadata_names)) as [Hin|Hnin].
    - by apply set_metadata_names_lookup.
    - rewrite !set_metadata_frame by done. by apply Hout. }
  split; [apply Hdet|].
  apply Hdet. intros k Hk. by apply set_metadata_frame.
Qed.

(** A module that already holds a version, and one that does not. *)
Lemma metadata_overwritten_witness :
  (set_metadata sample_build ({[ "__version__" := PyStr "0.0.0" ]}, [])).1
  = (set_metadata sample_build (∅, [])).1.
Proof.
  apply (proj1 (metadata_overwritten sample_build sample_build
                  {[ "__version__" := PyStr "0.0.0" ]} ∅)).
  intros k Hk. apply lookup_singleton_ne. intros <-. apply Hk. constructor.
Defined.

(** X10.  After the seven assignments the module has the names it had and
    the seven metadata names, no other; a module that was empty has exactly
    seven attributes. *)
Theorem metadata_names_added (b : BuildInfo) (m : PyModule) :
  dom (set_metadata b (m, [])).1 = list_to_set metadata_names ∪ dom m /\
  size (set_metadata b (∅, [])).1 = 7.
Proof.
  split.
  - unfold set_metadata, setattr_str, metadata_names. simpl.
    rewrite !dom_insert_L. apply set_eq. intros k.
    rewrite !elem_of_union, !elem_of_singleton, elem_of_empty. tauto.
  - unfold set_metadata, setattr_str. simpl.
    rewrite !map_size_insert_None; [by rewrite map_size_empty|..];
      by simplify_map_eq.
Qed.

(** ** Further properties of the callstack and of the call of the library *)

(** X11.  When the two helpers only push to the front, the callstack of
    lines 56-71, read from front to back, is the sequence of all pushes
    reversed: the helpers cannot disturb the order of the twelve
    callbacks the body pushes itself, and nothing is lost. *)
Theorem callstack_is_reversed_push_order
    (datatype_add node_add : deque -> deque) (pre_d pre_n : deque) :
  (forall d, datatype_add d = pre_d ++ d) ->
  (forall d, node_add d = pre_n ++ d) ->
  build_callstack datatype_add node_add
  = rev (rev pre_d
         ++ [Bind "LogBindings"; Bind "VersionBindings";
             Bind "DataQueueBindings"; Bind "OpenVINOBindings"]
         ++ rev pre_n
         ++ [Bind "AssetManagerBindings"; Bind "PipelineBindings";
             Bind "XLinkBindings"; Bind "DeviceBindings";
             Bind "DeviceBootloaderBindings";
             Bind "CalibrationHandlerBindings"; Bind "RosBindings";
             EndOfCallstack]) /\
  length (build_callstack datatype_add node_add)
  = 12 + length pre_d + length pre_n.
Proof.
  intros Hd Hn. unfold build_callstack, push_front. rewrite Hn, Hd.
  split.
  - rewrite !rev_app_distr, !rev_involutive. simpl.
    by rewrite <- !app_assoc, app_nil_r.
  - rewrite app_nil_r, !length_cons, length_app, !length_cons. lia.
Qed.

Lemma callstack_is_reversed_push_order_witness :
  length (build_callstack sample_datatype_add sample_node_add) = 12 + 1 + 1.
Proof.
  apply (callstack_is_reversed_push_order sample_datatype_add sample_node_add
           [Bind "DatatypeBindings"] [Bind "NodeBindings"]);
    intros d; reflexivity.
Defined.

(** X12.  From the interpreter to the library: when the initial call has
    returned without error, [dai::initialize] is called with the banner of
    the build and with a flag that is false exactly when [sys] or
    [builtins] holds, under the name of the option, an object that
    [cast<bool>] loads as false. *)
Theorem initialize_gets_the_resolved_flag
    build datatype_add node_add initial_call py initialize m0 r :
  initial_call (set_metadata build (m0, [])).1
               (build_callstack datatype_add node_add) = Some r ->
  dr_error r = None ->
  exists res flag,
    module_init build datatype_add node_add initial_call py initialize m0
    = Some res /\
    initialize_calls (log res) = [(banner build, flag)] /\
    (flag = false <->
     found_flag py "sys" = Some false \/ found_flag py "builtins" = Some false).
Proof.
  intros Hr He. rewrite module_init_run, Hr, He. cbv zeta.
  set (flag := (resolve_installSignalHandler py (log_after_bindings r)).1).
  assert (flag = false <->
          found_flag py "sys" = Some false \/
          found_flag py "builtins" = Some false) as Hflag.
  { unfold flag. rewrite resolve_value. simpl.
    destruct (found_flag py "sys") as [[]|],
             (found_flag py "builtins") as [[]|];
      simpl; split; try done; try (intros [?|?]; done); auto. }
  destruct (initialize _ _) as [[w|w]|]; eexists; exists flag;
    (split; [reflexivity|]); cbn [log];
    rewrite initialize_calls_app, initialize_calls_resolve; done.
Qed.

(** [sys] says false: the library is told not to install the handler. *)
Lemma initialize_gets_the_resolved_flag_witness :
  exists res,
    module_init sample_build sample_datatype_add sample_node_add
                (CommonBindings_bind plain_registrar 14)
                interp_sys_false_builtins_true (fun _ _ => None) ∅
    = Some res /\
    initialize_calls (log res) = [(banner sample_build, false)].
Proof.
  destruct (CommonBindings_bind plain_registrar 14
              (set_metadata sample_build (∅, [])).1
              (build_callstack sample_datatype_add sample_node_add))
    as [r|] eqn:E; [|vm_compute in E; discriminate].
  destruct (initialize_gets_the_resolved_flag sample_build
              sample_datatype_add sample_node_add
              (CommonBindings_bind plain_registrar 14)
              interp_sys_false_builtins_true (fun _ _ => None) ∅ r E)
    as (res & flag & Hres & Hcalls & Hflag).
  - vm_compute in E. injection E as <-. reflexivity.
  - exists res. split; [exact Hres|].
    rewrite Hcalls. f_equal. f_equal. apply Hflag. left.
    vm_compute. reflexivity.
Defined.
